(** * SolidsPy [gaussutil]: Gauss quadrature points and weights

    A shallow embedding of [solidspy/gaussutil.py] and the properties of
    its rule tables and of the tensor-product rule builder.

    Python [float]s and NumPy [float64]s are IEEE binary64 numbers; they
    are embedded as Rocq's primitive [float]s, whose decimal literals are
    rounded to the nearest binary64 value exactly as CPython rounds the
    literals of the source.  Python [int]s are [Z].  A raised exception
    is the [Raise] case of [result].  The interpreter is a 64-bit
    CPython; running out of memory is not modelled. *)

From Stdlib Require Import String ZArith List Floats Lia Bool Permutation.
Import ListNotations.

Set Warnings "-inexact-float".

Local Open Scope Z_scope.

(** ** Exceptions and results *)

Inductive exn : Type :=
| ValueError (msg : string)
| IndexError (msg : string)
| OverflowError (msg : string).

Inductive result (A : Type) : Type :=
| Ok (a : A)
| Raise (e : exn).

Arguments Ok {A} a.
Arguments Raise {A} e.

Definition bind {A B : Type} (r : result A) (k : A -> result B) : result B :=
  match r with
  | Ok a => k a
  | Raise e => Raise e
  end.

Notation "x <- r ;; k" := (bind r (fun x => k))
  (at level 61, r at next level, right associativity).
Notation "' p <- r ;; k" := (bind r (fun x => let p := x in k))
  (at level 61, p pattern, r at next level, right associativity).

(** ** Python numbers *)

Module Py.

(** The lists of [gauss_1d] mix [int] and [float] literals. *)
Inductive num : Type :=
| Int (z : Z)
| Float (f : float).

(** [float(z)]: the integer rounded to the nearest binary64 value. *)
Definition float_of_int (z : Z) : float :=
  SF2Prim (SpecFloat.binary_normalize FloatOps.prec FloatOps.emax z 0 false).

Definition to_float (x : num) : float :=
  match x with
  | Int z => float_of_int z
  | Float f => f
  end.

(** [x == y], [x < y] and [-x].  A comparison between an [int] and a
    [float] goes through [float_of_int], which is exact for
    [|z| <= 2^53]. *)
Definition eq (x y : num) : bool :=
  match x, y with
  | Int a, Int b => Z.eqb a b
  | _, _ => PrimFloat.eqb (to_float x) (to_float y)
  end.

Definition lt (x y : num) : bool :=
  match x, y with
  | Int a, Int b => Z.ltb a b
  | _, _ => PrimFloat.ltb (to_float x) (to_float y)
  end.

Definition neg (x : num) : num :=
  match x with
  | Int z => Int (- z)
  | Float f => Float (- f)%float
  end.

(** [sum(l)] of a list of floats: left to right, from the [int] 0. *)
Definition sum (l : list float) : num :=
  fold_left (fun acc w => Float (to_float acc + w)%float) l (Int 0).

(** [sorted(l)]: a stable sort that only uses [<]. *)
Fixpoint insert (x : num) (l : list num) : list num :=
  match l with
  | [] => [x]
  | y :: l' => if lt x y then x :: y :: l' else y :: insert x l'
  end.

Definition sorted (l : list num) : list num :=
  fold_left (fun acc x => insert x acc) l [].

End Py.

(** ** [itertools.product] *)

Module Itertools.

(** The bounds of a C [Py_ssize_t] and its size in bytes. *)
Definition ssize_t_max : Z := 2 ^ 63 - 1.
Definition ssize_t_min : Z := - 2 ^ 63.
Definition sizeof_ssize_t : Z := 8.

Section Product.
Context {A : Type}.

(** One step of the documented generator:
    [result = [x+[y] for x in result for y in pool]]. *)
Definition extend (result : list (list A)) (pool : list A) : list (list A) :=
  flat_map (fun x => map (fun y => x ++ [y]) pool) result.

(** [for pool in pools: ...], from [result = [[]]]. *)
Definition product_pools (pools : list (list A)) : list (list A) :=
  fold_left extend pools [[]].

(** [product(pool, repeat=n)]: [pools = [tuple(pool)] * repeat].  The
    constructor reads [repeat] as a [Py_ssize_t], refuses a negative one,
    and refuses one for which the index array of the [1 * repeat] pools
    cannot be sized. *)
Definition product (pool : list A) (n : Z) : result (list (list A)) :=
  if (n <? ssize_t_min) || (ssize_t_max <? n) then
    Raise (OverflowError "Python int too large to convert to C ssize_t")
  else if n <? 0 then
    Raise (ValueError "repeat argument cannot be negative")
  else if negb (n =? 0) && (ssize_t_max / sizeof_ssize_t / n <? 1) then
    Raise (OverflowError "repeat argument too large")
  else Ok (product_pools (repeat pool (Z.to_nat n))).

End Product.

End Itertools.

(** ** NumPy arrays: a 1-D [float64] array is a [list float], a 2-D one
    the list of its rows. *)

Module Np.

(** [np.array(rows)] on rows of Python numbers: every entry becomes a
    [float64]. *)
Definition array (rows : list (list Py.num)) : list (list float) :=
  map (map Py.to_float) rows.

(** [np.prod(t)]: [multiply.reduce], which starts from the first entry
    and is the identity [1.0] on an empty tuple. *)
Definition prod (t : list float) : float :=
  match t with
  | [] => 1%float
  | x :: r => fold_left PrimFloat.mul r x
  end.

Definition full (n : nat) (v : float) : list float := repeat v n.
Definition ones (n : nat) : list float := repeat 1%float n.
Definition zeros (n : nat) : list float := repeat 0%float n.
Definition zeros2 (r c : nat) : list (list float) := repeat (zeros c) r.

Fixpoint update {A : Type} (l : list A) (i : nat) (f : A -> result A)
  : result (list A) :=
  match l, i with
  | [], _ => Raise (IndexError "index is out of bounds")
  | x :: l', O => y <- f x ;; Ok (y :: l')
  | x :: l', S i' => r <- update l' i' f ;; Ok (x :: r)
  end.

(** [a[i] = v] and [a[i, j] = v] with non-negative indices. *)
Definition setitem (a : list float) (i : nat) (v : float) : result (list float) :=
  update a i (fun _ => Ok v).

Definition setitem2 (a : list (list float)) (i j : nat) (v : float)
  : result (list (list float)) :=
  update a i (fun row => setitem row j v).

End Np.

Local Open Scope float_scope.

(** ** General rules *)

Definition gauss_1d (npts : Z) : result (list Py.num * list float) :=
  let F := Py.Float in
  if (npts =? 2)%Z then
    Ok ([F (-0.577350269189625764); F 0.577350269189625764],
        [1.00000000000000000; 1.00000000000000000])
  else if (npts =? 3)%Z then
    Ok ([F (-0.774596669241483377); Py.Int 0; F 0.774596669241483377],
        [0.555555555555555556; 0.888888888888888889;
         0.555555555555555556])
  else if (npts =? 4)%Z then
    Ok ([F (-0.861136311594052575); F (-0.339981043584856265);
         F 0.339981043584856265; F 0.861136311594052575],
        [0.347854845137453857; 0.652145154862546143;
         0.652145154862546143; 0.347854845137453857])
  else if (npts =? 5)%Z then
    Ok ([F (-0.906179845938663993); F (-0.538469310105683091); Py.Int 0;
         F 0.538469310105683091; F 0.906179845938663993],
        [0.236926885056189088; 0.478628670499366468;
         0.568888888888888889; 0.478628670499366468;
         0.236926885056189088])
  else if (npts =? 6)%Z then
    Ok ([F (-0.932469514203152028); F (-0.661209386466264514);
         F (-0.238619186083196909); F 0.238619186083196909;
         F 0.661209386466264514; F 0.932469514203152028],
        [0.171324492379170345; 0.360761573048138608;
         0.467913934572691047; 0.467913934572691047;
         0.360761573048138608; 0.171324492379170345])
  else if (npts =? 7)%Z then
    Ok ([F (-0.949107912342758525); F (-0.741531185599394440);
         F (-0.405845151377397167); Py.Int 0; F 0.405845151377397167;
         F 0.741531185599394440; F 0.949107912342758525],
        [0.129484966168869693; 0.279705391489276668;
         0.381830050505118945; 0.417959183673469388;
         0.381830050505118945; 0.279705391489276668;
         0.129484966168869693])
  else if (npts =? 8)%Z then
    Ok ([F (-0.960289856497536232); F (-0.796666477413626740);
         F (-0.525532409916328986); F (-0.183434642495649805);
         F 0.183434642495649805; F 0.525532409916328986;
         F 0.796666477413626740; F 0.960289856497536232],
        [0.101228536290376259; 0.222381034453374471;
         0.313706645877887287; 0.362683783378361983;
         0.362683783378361983; 0.313706645877887287;
         0.222381034453374471; 0.101228536290376259])
  else if (npts =? 9)%Z then
    Ok ([F (-0.968160239507626090); F (-0.836031107326635794);
         F (-0.613371432700590397); F (-0.324253423403808929); Py.Int 0;
         F 0.324253423403808929; F 0.613371432700590397;
         F 0.836031107326635794; F 0.968160239507626090],
        [0.0812743883615744120; 0.180648160694857404;
         0.260610696402935462; 0.312347077040002840;
         0.330239355001259763; 0.312347077040002840;
         0.260610696402935462; 0.180648160694857404;
         0.0812743883615744120])
  else if (npts =? 10)%Z then
    Ok ([F (-0.973906528517171720); F (-0.865063366688984511);
         F (-0.679409568299024406); F (-0.433395394129247191);
         F (-0.148874338981631211); F 0.148874338981631211;
         F 0.433395394129247191; F 0.679409568299024406;
         F 0.865063366688984511; F 0.973906528517171720],
        [0.0666713443086881376; 0.149451349150580593;
         0.219086362515982044; 0.269266719309996355;
         0.295524224714752870; 0.295524224714752870;
         0.269266719309996355; 0.219086362515982044;
         0.149451349150580593; 0.0666713443086881376])
  else
    let msg := "The number of points should be in [2, 10]"%string in
    Raise (ValueError msg).

Definition gauss_nd (npts : Z) (ndim : Z)
  : result (list (list float) * list float) :=
  '(pts, wts) <- gauss_1d npts ;;
  tuples <- Itertools.product pts ndim ;;
  let nd_pts := Np.array tuples in
  nd_wts <- Itertools.product wts ndim ;;
  let nd_wts := map Np.prod nd_wts in
  Ok (nd_pts, nd_wts).

Definition gauss_tri (order : Z) : result (list (list float) * list float) :=
  if (order =? 1)%Z then
    let pts := [[0.3333333333333; 0.3333333333333]] in
    let wts := [1.0] in
    Ok (pts, wts)
  else if (order =? 2)%Z then
    let pts := [
      [0.1666666666667; 0.1666666666667];
      [0.6666666666667; 0.1666666666667];
      [0.1666666666667; 0.6666666666667]] in
    let wts := Np.full 3 0.333333333333 in
    Ok (pts, wts)
  else if existsb (Z.eqb order) [3; 4; 5]%Z then
    let pts := [
      [0.1012865073235; 0.1012865073235];
      [0.7974269853531; 0.1012865073235];
      [0.1012865073235; 0.7974269853531];
      [0.4701420641051; 0.0597158717898];
      [0.4701420641051; 0.4701420641051];
      [0.0597158717898; 0.4701420641051];
      [0.3333333333333; 0.3333333333333]] in
    let wts := [
      0.1259391805448; 0.1259391805448; 0.1259391805448;
      0.1323941527885; 0.1323941527885; 0.1323941527885;
      0.225] in
    Ok (pts, wts)
  else if existsb (Z.eqb order) [6; 7]%Z then
    let pts := [
      [0.0651301029022; 0.0651301029022];
      [0.8697397941956; 0.0651301029022];
      [0.0651301029022; 0.8697397941956];
      [0.3128654960049; 0.0486903154253];
      [0.6384441885698; 0.3128654960049];
      [0.0486903154253; 0.6384441885698];
      [0.6384441885698; 0.0486903154253];
      [0.3128654960049; 0.6384441885698];
      [0.0486903154253; 0.3128654960049];
      [0.2603459660790; 0.2603459660790];
      [0.4793080678413; 0.2603459660790];
      [0.2603459660790; 0.4793080678413];
      [0.3333333333333; 0.3333333333333]] in
    let wts := [
      0.0533472356088; 0.0533472356088; 0.0533472356088;
      0.0771137608903; 0.0771137608903; 0.0771137608903;
      0.0771137608903; 0.0771137608903; 0.0771137608903;
      0.1756152574332; 0.1756152574332; 0.1756152574332;
      -0.1495700444677] in
    Ok (pts, wts)
  else
    let msg := "The order should be in [1, 7]"%string in
    Raise (ValueError msg).

(** The defaults of the signatures [gauss_nd(npts, ndim=2)] and
    [gauss_tri(order=2)]: an omitted argument is [None]. *)
Definition gauss_nd_ndim_default : Z := 2.
Definition gauss_tri_order_default : Z := 2.

Definition call_gauss_nd (npts : Z) (ndim : option Z) :=
  gauss_nd npts (match ndim with Some d => d | None => gauss_nd_ndim_default end).

Definition call_gauss_tri (order : option Z) :=
  gauss_tri (match order with Some o => o | None => gauss_tri_order_default end).

(** ** Fixed grids (old): they return [(wts, pts)] *)

Definition gpoints2x2 : result (list float * list (list float)) :=
  let wts := Np.ones 4 in
  let pts := Np.zeros2 4 2 in
  pts <- Np.setitem2 pts 0 0 (-0.577350269189626) ;;
  pts <- Np.setitem2 pts 1 0 0.577350269189626 ;;
  pts <- Np.setitem2 pts 2 0 (-0.577350269189626) ;;
  pts <- Np.setitem2 pts 3 0 0.577350269189626 ;;

  pts <- Np.setitem2 pts 0 1 0.577350269189626 ;;
  pts <- Np.setitem2 pts 1 1 0.577350269189626 ;;
  pts <- Np.setitem2 pts 2 1 (-0.577350269189626) ;;
  pts <- Np.setitem2 pts 3 1 (-0.577350269189626) ;;

  Ok (wts, pts).

Definition gpoints7 : result (list float * list (list float)) :=
  let wts := Np.zeros 7 in
  let pts := Np.zeros2 7 2 in
  wts <- Np.setitem wts 0 0.1259391805448 ;;
  wts <- Np.setitem wts 1 0.1259391805448 ;;
  wts <- Np.setitem wts 2 0.1259391805448 ;;
  wts <- Np.setitem wts 3 0.1323941527885 ;;
  wts <- Np.setitem wts 4 0.1323941527885 ;;
  wts <- Np.setitem wts 5 0.1323941527885 ;;
  wts <- Np.setitem wts 6 0.225 ;;

  pts <- Np.setitem2 pts 0 0 0.1012865073235 ;;
  pts <- Np.setitem2 pts 1 0 0.7974269853531 ;;
  pts <- Np.setitem2 pts 2 0 0.1012865073235 ;;
  pts <- Np.setitem2 pts 3 0 0.4701420641051 ;;
  pts <- Np.setitem2 pts 4 0 0.4701420641051 ;;
  pts <- Np.setitem2 pts 5 0 0.0597158717898 ;;
  pts <- Np.setitem2 pts 6 0 0.3333333333333 ;;

  pts <- Np.setitem2 pts 0 1 0.1012865073235 ;;
  pts <- Np.setitem2 pts 1 1 0.1012865073235 ;;
  pts <- Np.setitem2 pts 2 1 0.7974269853531 ;;
  pts <- Np.setitem2 pts 3 1 0.0597158717898 ;;
  pts <- Np.setitem2 pts 4 1 0.4701420641051 ;;
  pts <- Np.setitem2 pts 5 1 0.4701420641051 ;;
  pts <- Np.setitem2 pts 6 1 0.3333333333333 ;;

  Ok (wts, pts).

Definition gpoints3 : result (list float * list (list float)) :=
  let wts := Np.full 3 0.333333333333 in
  let pts := Np.zeros2 3 2 in

  pts <- Np.setitem2 pts 0 0 0.1666666666667 ;;
  pts <- Np.setitem2 pts 1 0 0.6666666666667 ;;
  pts <- Np.setitem2 pts 2 0 0.1666666666667 ;;

  pts <- Np.setitem2 pts 0 1 0.1666666666667 ;;
  pts <- Np.setitem2 pts 1 1 0.1666666666667 ;;
  pts <- Np.setitem2 pts 2 1 0.6666666666667 ;;

  Ok (wts, pts).

(** ** Positions in a Cartesian product *)

(** The index along axis [k] of the [i]-th tuple of a product of [d]
    pools of [m] items each, the tuples being listed in lexicographic
    order (the last axis runs fastest), and the list of these indices
    over the axes [0 .. d-1]. *)
Definition axis_index (m d i k : nat) : nat := (i / m ^ (d - 1 - k)) mod m.

Definition axis_indices (m d i : nat) : list nat :=
  map (axis_index m d i) (seq 0 d).

(** Lexicographic order on index tuples. *)
Inductive lex_lt : list nat -> list nat -> Prop :=
| lex_lt_head x y l l' : (x < y)%nat -> lex_lt (x :: l) (y :: l')
| lex_lt_tail x l l' : lex_lt l l' -> lex_lt (x :: l) (x :: l').

(** ** Comparing rules *)

(** [abs(x - y) <= tol], on numbers, on coordinate tuples of the same
    length, and on (point, weight) pairs. *)
Definition close (tol x y : float) : bool :=
  PrimFloat.leb (abs (x - y)) tol.

Definition close_point (tol : float) (p q : list float) : bool :=
  Nat.eqb (length p) (length q) &&
  forallb (fun xy => close tol (fst xy) (snd xy)) (combine p q).

Definition close_pair (tol : float) (a b : list float * float) : bool :=
  close_point tol (fst a) (fst b) && close tol (snd a) (snd b).

(** Two rules, as lists of (point, weight) pairs, hold the same multiset
    of pairs up to [tol]: some rearrangement of the second matches the
    first pair by pair.  With [tol = 0] the pairs are equal under [==]. *)
Definition same_rule_within (tol : float)
    (r1 r2 : list (list float * float)) : Prop :=
  exists l, Permutation l r2 /\
            Forall2 (fun a b => close_pair tol a b = true) r1 l.

(** ** Applying a rule *)

(** [x ** k] for a natural number [k], by repeated multiplication. *)
Fixpoint fpow (x : float) (k : nat) : float :=
  match k with
  | O => 1%float
  | S k' => (x * fpow x k')%float
  end.

(** The monomial [x_1^e_1 * ... * x_d^e_d] at the point [p]. *)
Definition monomial (e : list nat) (p : list float) : float :=
  fold_left (fun acc xk => (acc * fpow (fst xk) (snd xk))%float)
            (combine p e) 1%float.

(** [sum(w * f(p) for p, w in zip(pts, wts))]: how a caller integrates
    [f] with a rule. *)
Definition apply_rule (f : list float -> float)
    (pts : list (list float)) (wts : list float) : float :=
  fold_left (fun acc pw => (acc + snd pw * f (fst pw))%float)
            (combine pts wts) 0%float.

(** The exact integrals the rules approximate: of [x^k] over [-1, 1], of
    a monomial over the hypercube, and of [x^a y^b] over the reference
    triangle divided by its area 1/2 (the triangle weights sum to 1). *)
Definition line_integral (k : nat) : float :=
  if Nat.even k then (2 / Py.float_of_int (Z.of_nat (S k)))%float
  else 0%float.

Definition cube_integral (e : list nat) : float :=
  fold_left (fun acc k => (acc * line_integral k)%float) e 1%float.

Definition tri_integral (a b : nat) : float :=
  (Py.float_of_int (2 * Z.of_nat (fact a) * Z.of_nat (fact b)) /
   Py.float_of_int (Z.of_nat (fact (a + b + 2))))%float.

(** The 1-D points as rows of a one-column array. *)
Definition column (pts : list Py.num) : list (list float) :=
  map (fun p => [Py.to_float p]) pts.

(** The product of the components of a weight tuple, in the words of
    the specification: the components multiplied together, in order. *)
Definition product_of_components (t : list float) : float :=
  fold_left PrimFloat.mul t 1%float.

(** * Properties *)

Local Open Scope Z_scope.

(** ** Helper lemmas *)

Lemma line_count_cases (n : Z) :
  2 <= n <= 10 -> In n [2; 3; 4; 5; 6; 7; 8; 9; 10].
Proof. simpl; lia. Qed.

Lemma tri_order_cases (o : Z) :
  1 <= o <= 7 -> In o [1; 2; 3; 4; 5; 6; 7].
Proof. simpl; lia. Qed.

Ltac each_case H :=
  simpl in H;
  repeat (destruct H as [H | H]; [subst | ]); try contradiction.

Lemma gauss_1d_raises (n : Z) :
  ~ (2 <= n <= 10) ->
  gauss_1d n = Raise (ValueError "The number of points should be in [2, 10]").
Proof.
  intros Hn. unfold gauss_1d.
  repeat match goal with
         | |- context [(n =? ?k)] =>
             destruct (Z.eqb_spec n k) as [-> | _]; [exfalso; lia | ]
         end.
  reflexivity.
Qed.

Lemma gauss_1d_returns (n : Z) :
  2 <= n <= 10 ->
  exists pts wts, gauss_1d n = Ok (pts, wts) /\
    length pts = Z.to_nat n /\ length wts = Z.to_nat n.
Proof.
  intros Hn. apply line_count_cases in Hn.
  each_case Hn; do 2 eexists; (split; [reflexivity | split; reflexivity]).
Qed.

Lemma gauss_tri_raises (o : Z) :
  ~ (1 <= o <= 7) ->
  gauss_tri o = Raise (ValueError "The order should be in [1, 7]").
Proof.
  intros Ho. unfold gauss_tri, existsb.
  repeat match goal with
         | |- context [(o =? ?k)] =>
             destruct (Z.eqb_spec o k) as [-> | _]; [exfalso; lia | ]
         end.
  reflexivity.
Qed.

Lemma ssize_t_quotient :
  Itertools.ssize_t_max / Itertools.sizeof_ssize_t = 2 ^ 60 - 1.
Proof. reflexivity. Qed.

Ltac product_guards d :=
  unfold Itertools.product; rewrite ssize_t_quotient;
  unfold Itertools.ssize_t_min, Itertools.ssize_t_max;
  destruct (Z.ltb_spec d (- 2 ^ 63));
  destruct (Z.ltb_spec (2 ^ 63 - 1) d);
  destruct (Z.ltb_spec d 0);
  destruct (Z.eqb_spec d 0);
  destruct (Z.ltb_spec ((2 ^ 60 - 1) / d) 1);
  cbn [orb andb negb]; try reflexivity; try (exfalso; lia).

Lemma product_returns {A : Type} (pool : list A) (d : Z) :
  0 <= d < 2 ^ 60 ->
  Itertools.product pool d =
    Ok (Itertools.product_pools (repeat pool (Z.to_nat d))).
Proof.
  intros Hd. product_guards d.
  assert (1 <= (2 ^ 60 - 1) / d) by (apply Z.div_le_lower_bound; lia).
  lia.
Qed.

Lemma product_negative {A : Type} (pool : list A) (d : Z) :
  - 2 ^ 63 <= d < 0 ->
  Itertools.product pool d =
    Raise (ValueError "repeat argument cannot be negative").
Proof.
  intros Hd. product_guards d.
Qed.

Lemma product_too_large {A : Type} (pool : list A) (d : Z) :
  2 ^ 60 <= d < 2 ^ 63 ->
  Itertools.product pool d = Raise (OverflowError "repeat argument too large").
Proof.
  intros Hd. product_guards d.
  assert ((2 ^ 60 - 1) / d = 0) by (apply Z.div_small; lia).
  lia.
Qed.

Lemma product_not_ssize_t {A : Type} (pool : list A) (d : Z) :
  d < - 2 ^ 63 \/ 2 ^ 63 <= d ->
  Itertools.product pool d =
    Raise (OverflowError "Python int too large to convert to C ssize_t").
Proof.
  intros Hd. product_guards d.
Qed.

Lemma gauss_nd_unfold (n d : Z) pts wts :
  gauss_1d n = Ok (pts, wts) ->
  0 <= d < 2 ^ 60 ->
  gauss_nd n d =
    Ok (Np.array (Itertools.product_pools (repeat pts (Z.to_nat d))),
        map Np.prod (Itertools.product_pools (repeat wts (Z.to_nat d)))).
Proof.
  intros H1 Hd. unfold gauss_nd. rewrite H1. simpl.
  rewrite !product_returns by exact Hd. reflexivity.
Qed.

Lemma gauss_nd_raises_as_product (n d : Z) (e : exn) :
  2 <= n <= 10 ->
  (forall pool : list Py.num, Itertools.product pool d = Raise e) ->
  gauss_nd n d = Raise e.
Proof.
  intros Hn He. destruct (gauss_1d_returns n Hn) as (pts & wts & H1 & _).
  unfold gauss_nd. rewrite H1. simpl. rewrite He. reflexivity.
Qed.

Lemma gauss_nd_negative_dim (n d : Z) :
  2 <= n <= 10 -> - 2 ^ 63 <= d < 0 ->
  gauss_nd n d = Raise (ValueError "repeat argument cannot be negative").
Proof.
  intros Hn Hd. apply gauss_nd_raises_as_product; [exact Hn | ].
  intros pool. apply product_negative. exact Hd.
Qed.

Lemma gauss_nd_too_large_dim (n d : Z) :
  2 <= n <= 10 -> 2 ^ 60 <= d < 2 ^ 63 ->
  gauss_nd n d = Raise (OverflowError "repeat argument too large").
Proof.
  intros Hn Hd. apply gauss_nd_raises_as_product; [exact Hn | ].
  intros pool. apply product_too_large. exact Hd.
Qed.

Lemma gauss_nd_not_ssize_t_dim (n d : Z) :
  2 <= n <= 10 -> d < - 2 ^ 63 \/ 2 ^ 63 <= d ->
  gauss_nd n d =
    Raise (OverflowError "Python int too large to convert to C ssize_t").
Proof.
  intros Hn Hd. apply gauss_nd_raises_as_product; [exact Hn | ].
  intros pool. apply product_not_ssize_t. exact Hd.
Qed.

Lemma gauss_nd_zero_dim (n : Z) :
  2 <= n <= 10 -> gauss_nd n 0 = Ok ([[]], [1%float]).
Proof.
  intros Hn. destruct (gauss_1d_returns n Hn) as (pts & wts & H1 & _).
  rewrite (gauss_nd_unfold n 0 pts wts H1); [reflexivity | lia].
Qed.

(** Multiplying a tabulated weight by [1.0] leaves it unchanged. *)
Lemma gauss_1d_one_mul (n : Z) pts wts :
  gauss_1d n = Ok (pts, wts) ->
  Forall (fun w => (1 * w)%float = w) wts.
Proof.
  intros H1.
  assert (Hn : 2 <= n <= 10).
  { destruct (Z_le_dec 2 n) as [H2 | H2];
      [destruct (Z_le_dec n 10) as [H10 | H10]; [lia | ] | ];
      rewrite gauss_1d_raises in H1 by lia; discriminate H1. }
  apply line_count_cases in Hn.
  each_case Hn; vm_compute in H1; injection H1 as <- <-; repeat constructor.
Qed.

Lemma prod_is_product_of_components (t wts : list float) :
  Forall (fun w => (1 * w)%float = w) wts ->
  Forall (fun c => In c wts) t ->
  Np.prod t = product_of_components t.
Proof.
  intros Hone Hin. destruct t as [ | x r]; [reflexivity | ].
  unfold product_of_components. simpl.
  rewrite Forall_forall in Hone. rewrite (Hone x); [reflexivity | ].
  inversion Hin; assumption.
Qed.

(** ** The Cartesian product generator *)

Local Open Scope nat_scope.

Lemma axis_index_succ (m d i k : nat) :
  k < d -> axis_index m (S d) i k = axis_index m d (i / m) k.
Proof.
  intros Hk. unfold axis_index.
  replace (S d - 1 - k) with (S (d - 1 - k)) by lia.
  rewrite Nat.pow_succ_r', Nat.Div0.div_div. reflexivity.
Qed.

Lemma axis_index_last (m d i : nat) :
  axis_index m (S d) i d = i mod m.
Proof.
  unfold axis_index. replace (S d - 1 - d) with 0 by lia.
  rewrite Nat.pow_0_r, Nat.div_1_r. reflexivity.
Qed.

Lemma axis_indices_succ (m d i : nat) :
  axis_indices m (S d) i = axis_indices m d (i / m) ++ [i mod m].
Proof.
  unfold axis_indices. rewrite seq_S, map_app. simpl.
  rewrite axis_index_last. f_equal.
  apply map_ext_in. intros k Hk. apply in_seq in Hk.
  apply axis_index_succ. lia.
Qed.

Section ProductFacts.
Context {A : Type} (pool : list A) (dflt : A).

Let m := length pool.

Lemma product_pools_succ (d : nat) :
  Itertools.product_pools (repeat pool (S d)) =
  Itertools.extend (Itertools.product_pools (repeat pool d)) pool.
Proof.
  unfold Itertools.product_pools.
  change (repeat pool (S d)) with (pool :: repeat pool d).
  rewrite repeat_cons, fold_left_app. reflexivity.
Qed.

Lemma length_extend (res : list (list A)) :
  length (Itertools.extend res pool) = length res * m.
Proof.
  unfold Itertools.extend. apply flat_map_constant_length.
  intros x _. apply length_map.
Qed.

Lemma length_product_pools (d : nat) :
  length (Itertools.product_pools (repeat pool d)) = m ^ d.
Proof.
  induction d as [ | d IH]; [reflexivity | ].
  rewrite product_pools_succ, length_extend, IH. simpl. lia.
Qed.

Lemma nth_extend (res : list (list A)) (i : nat) :
  i < length res * m ->
  nth i (Itertools.extend res pool) [] =
  nth (i / m) res [] ++ [nth (i mod m) pool dflt].
Proof.
  revert i. induction res as [ | x res IH]; intros i Hi; [simpl in Hi; lia | ].
  change (Itertools.extend (x :: res) pool)
    with (map (fun y => x ++ [y]) pool ++ Itertools.extend res pool).
  destruct (Nat.lt_ge_cases i m) as [Hlt | Hge].
  - rewrite app_nth1 by (rewrite length_map; exact Hlt).
    rewrite Nat.div_small, Nat.mod_small by exact Hlt.
    rewrite (nth_indep _ [] (x ++ [dflt])) by (rewrite length_map; exact Hlt).
    apply (map_nth (fun y => x ++ [y])).
  - rewrite app_nth2 by (rewrite length_map; exact Hge).
    rewrite length_map. fold m.
    assert (Hm : m <> 0) by lia.
    replace i with ((i - m) + 1 * m) at 2 3 by lia.
    rewrite Nat.div_add, Nat.Div0.mod_add by exact Hm.
    rewrite Nat.add_1_r. simpl nth at 2.
    apply IH. simpl in Hi. lia.
Qed.

(** The [i]-th tuple of [product(pool, repeat=d)] picks, along each
    axis, the item at that axis' index of [i]. *)
Lemma nth_product_pools (d i : nat) :
  i < m ^ d ->
  nth i (Itertools.product_pools (repeat pool d)) [] =
  map (fun k => nth k pool dflt) (axis_indices m d i).
Proof.
  revert i. induction d as [ | d IH]; intros i Hi.
  - simpl in Hi. replace i with 0 by lia. reflexivity.
  - rewrite product_pools_succ, nth_extend
      by (rewrite length_product_pools; simpl in Hi; lia).
    assert (Hm : m <> 0) by (intros Hz; rewrite Hz in Hi; simpl in Hi; lia).
    rewrite IH.
    + rewrite axis_indices_succ, map_app. reflexivity.
    + apply Nat.Div0.div_lt_upper_bound. simpl in Hi. lia.
Qed.

Lemma in_product_pools (d : nat) (t : list A) :
  In t (Itertools.product_pools (repeat pool d)) ->
  length t = d /\ Forall (fun c => In c pool) t.
Proof.
  revert t. induction d as [ | d IH]; intros t Ht.
  - destruct Ht as [<- | []]. split; [reflexivity | constructor].
  - rewrite product_pools_succ in Ht. unfold Itertools.extend in Ht.
    apply in_flat_map in Ht. destruct Ht as (x & Hx & Ht).
    apply in_map_iff in Ht. destruct Ht as (y & <- & Hy).
    destruct (IH x Hx) as [Hlen Hall]. split.
    + rewrite length_app. simpl. lia.
    + apply Forall_app. split; [exact Hall | ].
      constructor; [exact Hy | constructor].
Qed.

End ProductFacts.

Lemma axis_indices_length (m d i : nat) : length (axis_indices m d i) = d.
Proof. unfold axis_indices. rewrite length_map, length_seq. reflexivity. Qed.

Lemma lex_lt_app_l (l1 l2 a b : list nat) :
  lex_lt l1 l2 -> lex_lt (l1 ++ a) (l2 ++ b).
Proof.
  induction 1 as [x y l l' Hxy | x l l' _ IH]; simpl.
  - apply lex_lt_head. exact Hxy.
  - apply lex_lt_tail. exact IH.
Qed.

Lemma lex_lt_app_r (l a b : list nat) :
  lex_lt a b -> lex_lt (l ++ a) (l ++ b).
Proof.
  intros Hab. induction l as [ | x l IH]; simpl; [exact Hab | ].
  apply lex_lt_tail. exact IH.
Qed.

(** Listing the tuples by increasing position lists their axis indices
    in strictly increasing lexicographic order. *)
Lemma axis_indices_lex (m d i j : nat) :
  i < j -> j < m ^ d -> lex_lt (axis_indices m d i) (axis_indices m d j).
Proof.
  revert i j. induction d as [ | d IH]; intros i j Hij Hj.
  - simpl in Hj. lia.
  - assert (Hm : m <> 0) by (intros Hz; rewrite Hz in Hj; simpl in Hj; lia).
    rewrite !axis_indices_succ.
    destruct (Nat.lt_ge_cases (i / m) (j / m)) as [Hlt | Hge].
    + apply lex_lt_app_l. apply IH; [exact Hlt | ].
      apply Nat.Div0.div_lt_upper_bound. simpl in Hj. lia.
    + assert (Heq : i / m = j / m).
      { apply Nat.le_antisymm; [ | exact Hge].
        apply Nat.Div0.div_le_mono. lia. }
      rewrite Heq. apply lex_lt_app_r. apply lex_lt_head.
      pose proof (Nat.div_mod_eq i m). pose proof (Nat.div_mod_eq j m). nia.
Qed.

Local Open Scope Z_scope.

(** ** The claims *)

(** C9: for every valid point count [n] in [2, 10], [gauss_nd n 0] does
    not raise: it returns exactly one point, the empty coordinate tuple,
    paired with exactly one weight, [1.0] (the empty product). *)
Theorem gauss_nd_dim0_single_point (n : Z) :
  2 <= n <= 10 ->
  gauss_nd n 0 = Ok ([[]], [Np.prod []]) /\ Np.prod [] = 1%float.
Proof.
  intros Hn. split; [apply gauss_nd_zero_dim; exact Hn | reflexivity].
Qed.

Lemma gauss_nd_dim0_single_point_witness :
  2 <= 4 <= 10 /\
  gauss_nd 4 0 = Ok ([[]], [Np.prod []]) /\ Np.prod [] = 1%float.
Proof.
  split; [lia | apply (gauss_nd_dim0_single_point 4); lia].
Defined.

(** C1, as stated, fails: [gauss_nd 4 0] returns a rule, it raises
    nothing. *)
Lemma gauss_nd_dim0_not_refused :
  gauss_nd 4 0 = Ok ([[]], [1%float]) /\
  ~ (exists e, gauss_nd 4 0 = Raise e).
Proof.
  split; [reflexivity | intros [e He]; discriminate He].
Qed.

(** C1 (amended): for every valid point count in [2, 10], [gauss_nd]
    with dimension 0 returns a rule; with a negative dimension it fails
    with the errors of the product generator: the [ValueError] for a
    negative [repeat], or the [OverflowError] of the conversion when the
    dimension is below -2^63. *)
Theorem gauss_nd_dimension_guard (n d : Z) :
  2 <= n <= 10 -> d < 1 ->
  (d = 0 /\ exists rule, gauss_nd n d = Ok rule) \/
  (- 2 ^ 63 <= d < 0 /\
   gauss_nd n d = Raise (ValueError "repeat argument cannot be negative")) \/
  (d < - 2 ^ 63 /\
   gauss_nd n d =
     Raise (OverflowError "Python int too large to convert to C ssize_t")).
Proof.
  intros Hn Hd.
  destruct (Z.eq_dec d 0) as [-> | Hnz];
    [ | destruct (Z_le_dec (- 2 ^ 63) d) as [Hge | Hlt]].
  - left. split; [reflexivity | ].
    eexists. apply gauss_nd_zero_dim; exact Hn.
  - right; left. split; [lia | ]. apply gauss_nd_negative_dim; [exact Hn | lia].
  - right; right. split; [lia | ].
    apply gauss_nd_not_ssize_t_dim; [exact Hn | lia].
Qed.

Lemma gauss_nd_dimension_guard_witness :
  2 <= 4 <= 10 /\ -1 < 1 /\
  gauss_nd 4 (-1) = Raise (ValueError "repeat argument cannot be negative").
Proof.
  split; [lia | split; [lia | ]].
  destruct (gauss_nd_dimension_guard 4 (-1))
    as [[Hzero _] | [[_ Hraise] | [Hlow _]]];
    [lia | lia | discriminate Hzero | exact Hraise | exfalso; lia].
Defined.

(** C5: [gauss_1d n] raises exactly when [n] is not one of 2..10, the
    error is the [ValueError] whose message names the range [2, 10]
    (so [gauss_1d 1] and [gauss_1d 11] fail), and [gauss_nd n d] raises
    that same error for every [d]. *)
Theorem gauss_1d_error_iff (n : Z) :
  ((exists e, gauss_1d n = Raise e) <-> ~ (2 <= n <= 10)) /\
  (forall e, gauss_1d n = Raise e ->
     e = ValueError "The number of points should be in [2, 10]" /\
     forall d, gauss_nd n d = Raise e) /\
  (exists e, gauss_1d 1 = Raise e /\ gauss_1d 11 = Raise e).
Proof.
  split; [ | split].
  - split.
    + intros [e He] Hn.
      destruct (gauss_1d_returns n Hn) as (pts & wts & H1 & _). congruence.
    + intros Hn. eexists. apply gauss_1d_raises; exact Hn.
  - intros e He.
    assert (Hn : ~ (2 <= n <= 10)).
    { intros Hn. destruct (gauss_1d_returns n Hn) as (pts & wts & H1 & _).
      congruence. }
    pose proof (gauss_1d_raises n Hn) as Hr. split; [congruence | ].
    intros d. unfold gauss_nd. rewrite He. reflexivity.
  - eexists. split; reflexivity.
Qed.

Lemma gauss_1d_error_iff_witness :
  gauss_1d 11 = Raise (ValueError "The number of points should be in [2, 10]") /\
  gauss_nd 11 3 = Raise (ValueError "The number of points should be in [2, 10]").
Proof.
  destruct (gauss_1d_error_iff 11) as (_ & Hsame & _).
  split; [reflexivity | exact (proj2 (Hsame _ eq_refl) 3)].
Defined.

(** C6: [gauss_tri order] raises exactly when [order] is not one of
    1..7, the error is the [ValueError] whose message names the range
    [1, 7] (so [gauss_tri 0] and [gauss_tri 8] fail), and a failing call
    yields no rule. *)
Theorem gauss_tri_error_iff (order : Z) :
  ((exists e, gauss_tri order = Raise e) <-> ~ (1 <= order <= 7)) /\
  (forall e, gauss_tri order = Raise e ->
     e = ValueError "The order should be in [1, 7]" /\
     forall rule, gauss_tri order <> Ok rule) /\
  (exists e, gauss_tri 0 = Raise e /\ gauss_tri 8 = Raise e).
Proof.
  assert (Hok : 1 <= order <= 7 -> exists rule, gauss_tri order = Ok rule).
  { intros Ho. apply tri_order_cases in Ho.
    each_case Ho; eexists; reflexivity. }
  split; [ | split].
  - split.
    + intros [e He] Ho. destruct (Hok Ho) as [rule Hr]. congruence.
    + intros Ho. eexists. apply gauss_tri_raises; exact Ho.
  - intros e He.
    assert (Ho : ~ (1 <= order <= 7)).
    { intros Ho. destruct (Hok Ho) as [rule Hr]. congruence. }
    pose proof (gauss_tri_raises order Ho) as Hr. split; [congruence | ].
    intros rule Hrule. congruence.
  - eexists. split; reflexivity.
Qed.

Lemma gauss_tri_error_iff_witness :
  exists e, gauss_tri 8 = Raise e /\
            e = ValueError "The order should be in [1, 7]".
Proof.
  destruct (gauss_tri_error_iff 8) as ([_ Hraise] & Hmsg & _).
  destruct Hraise as [e He]; [lia | ].
  exists e. split; [exact He | exact (proj1 (Hmsg e He))].
Defined.

(** C10: the optional parameters have fixed defaults: [gauss_nd] called
    without [ndim] is [gauss_nd npts 2], and [gauss_tri] called without
    an argument is [gauss_tri 2]. *)
Theorem default_arguments (npts : Z) :
  call_gauss_nd npts None = gauss_nd npts 2 /\
  call_gauss_nd npts None = call_gauss_nd npts (Some 2) /\
  call_gauss_tri None = gauss_tri 2 /\
  call_gauss_tri None = call_gauss_tri (Some 2).
Proof. repeat split. Qed.

(** C4: for every order in [1, 7], [gauss_tri] returns as many weights
    as points: 1 point for order 1, 3 for order 2, the same 7-point rule
    for orders 3, 4 and 5, and the same 13-point rule, with exactly one
    strictly negative weight, for orders 6 and 7. *)
Theorem gauss_tri_families (order : Z) :
  1 <= order <= 7 ->
  exists pts wts,
    gauss_tri order = Ok (pts, wts) /\
    length pts = length wts /\
    (order = 1 -> length pts = 1%nat) /\
    (order = 2 -> length pts = 3%nat) /\
    (3 <= order <= 5 ->
       length pts = 7%nat /\ gauss_tri order = gauss_tri 3) /\
    (6 <= order <= 7 ->
       length pts = 13%nat /\ gauss_tri order = gauss_tri 6 /\
       length (filter (fun w => PrimFloat.ltb w 0) wts) = 1%nat).
Proof.
  intros Ho. apply tri_order_cases in Ho.
  each_case Ho; do 2 eexists;
    (split; [reflexivity | ]);
    repeat split; intros; try lia; reflexivity.
Qed.

Lemma gauss_tri_families_witness :
  exists pts wts,
    gauss_tri 7 = Ok (pts, wts) /\
    length pts = length wts /\
    (7 = 1 -> length pts = 1%nat) /\
    (7 = 2 -> length pts = 3%nat) /\
    (3 <= 7 <= 5 ->
       length pts = 7%nat /\ gauss_tri 7 = gauss_tri 3) /\
    (6 <= 7 <= 7 ->
       length pts = 13%nat /\ gauss_tri 7 = gauss_tri 6 /\
       length (filter (fun w => PrimFloat.ltb w 0) wts) = 1%nat).
Proof.
  apply (gauss_tri_families 7); lia.
Defined.

(** C7: for every tabulated point count [n] in [2, 10], [gauss_1d n]
    returns [n] points and [n] weights; the weights sum to 2.0 within
    1e-12; the sorted points are symmetric about 0; every abscissa lies
    strictly between -1 and 1; and for odd [n] exactly one point equals
    0.0. *)
Theorem gauss_1d_invariants (n : Z) :
  2 <= n <= 10 ->
  exists pts wts,
    gauss_1d n = Ok (pts, wts) /\
    Z.of_nat (length pts) = n /\
    Z.of_nat (length wts) = n /\
    PrimFloat.leb (abs (Py.to_float (Py.sum wts) - 2.0)) 1e-12 = true /\
    (forall i, (i < length pts)%nat ->
       Py.eq (nth i (Py.sorted pts) (Py.Int 0))
             (Py.neg (nth (length pts - 1 - i) (Py.sorted pts) (Py.Int 0)))
       = true) /\
    Forall (fun p => Py.lt (Py.Float (-1)) p = true /\
                     Py.lt p (Py.Float 1) = true) pts /\
    (Z.odd n = true ->
       length (filter (fun p => Py.eq p (Py.Float 0.0)) pts) = 1%nat).
Proof.
  intros Hn. apply line_count_cases in Hn.
  each_case Hn; do 2 eexists;
    (split; [reflexivity | ]);
    (split; [reflexivity | ]);
    (split; [reflexivity | ]);
    (split; [vm_compute; reflexivity | ]);
    (split; [ | split ]).
  all: try (intros i Hi; simpl in Hi;
            repeat (destruct i as [ | i];
                    [vm_compute; reflexivity | try (exfalso; lia)])).
  all: try (repeat constructor; vm_compute; reflexivity).
  all: try (intros Hodd; vm_compute in Hodd |- *;
            first [reflexivity | discriminate Hodd]).
Qed.

Lemma gauss_1d_invariants_witness :
  exists pts wts,
    gauss_1d 7 = Ok (pts, wts) /\
    Z.of_nat (length pts) = 7 /\
    Z.of_nat (length wts) = 7 /\
    PrimFloat.leb (abs (Py.to_float (Py.sum wts) - 2.0)) 1e-12 = true /\
    (forall i, (i < length pts)%nat ->
       Py.eq (nth i (Py.sorted pts) (Py.Int 0))
             (Py.neg (nth (length pts - 1 - i) (Py.sorted pts) (Py.Int 0)))
       = true) /\
    Forall (fun p => Py.lt (Py.Float (-1)) p = true /\
                     Py.lt p (Py.Float 1) = true) pts /\
    (Z.odd 7 = true ->
       length (filter (fun p => Py.eq p (Py.Float 0.0)) pts) = 1%nat).
Proof.
  apply (gauss_1d_invariants 7); lia.
Defined.

(** C2, as stated, fails: not every dimension [d >= 1] yields a rule;
    from [d = 2^60] on the product generator refuses [repeat]. *)
Lemma gauss_nd_dimension_too_large :
  1 <= 2 ^ 60 /\
  gauss_nd 2 (2 ^ 60) = Raise (OverflowError "repeat argument too large") /\
  ~ (exists rule, gauss_nd 2 (2 ^ 60) = Ok rule).
Proof.
  split; [lia | ].
  assert (H : gauss_nd 2 (2 ^ 60)
              = Raise (OverflowError "repeat argument too large"))
    by (apply gauss_nd_too_large_dim; lia).
  split; [exact H | ]. intros [rule Hrule]. congruence.
Qed.

(** C2 (amended): for every point count [n] in [2, 10] and every
    dimension [d] with [1 <= d < 2^60], [gauss_nd n d] returns [n^d]
    coordinate tuples, each a [d]-tuple of abscissas of [gauss_1d n],
    and [n^d] weights, the [i]-th one being the product of the
    components of the [i]-th tuple of the Cartesian product of the 1-D
    weights; the [i]-th point and the [i]-th weight tuple pick their
    components at the same axis indices, and these index tuples increase
    lexicographically with [i]. *)
Theorem gauss_nd_cartesian (n d : Z) :
  2 <= n <= 10 -> 1 <= d < 2 ^ 60 ->
  exists pts wts nd_pts nd_wts wt_tuples,
    gauss_1d n = Ok (pts, wts) /\
    gauss_nd n d = Ok (nd_pts, nd_wts) /\
    Itertools.product wts d = Ok wt_tuples /\
    Z.of_nat (length nd_pts) = n ^ d /\
    Z.of_nat (length nd_wts) = n ^ d /\
    Forall (fun p => Z.of_nat (length p) = d /\
                     Forall (fun c => In c (map Py.to_float pts)) p) nd_pts /\
    (forall i, (i < length nd_wts)%nat ->
       nth i nd_wts 1%float = product_of_components (nth i wt_tuples [])) /\
    (forall i, (i < length nd_pts)%nat ->
       let ks := axis_indices (Z.to_nat n) (Z.to_nat d) i in
       nth i nd_pts [] = map (fun k => Py.to_float (nth k pts (Py.Int 0))) ks /\
       nth i wt_tuples [] = map (fun k => nth k wts 0%float) ks /\
       nth i nd_wts 1%float =
         fold_left PrimFloat.mul (map (fun k => nth k wts 0%float) ks) 1%float) /\
    (forall i j, (i < j < length nd_pts)%nat ->
       lex_lt (axis_indices (Z.to_nat n) (Z.to_nat d) i)
              (axis_indices (Z.to_nat n) (Z.to_nat d) j)).
Proof.
  intros Hn Hd.
  destruct (gauss_1d_returns n Hn) as (pts & wts & H1 & Lp & Lw).
  pose proof (gauss_1d_one_mul n pts wts H1) as Hone.
  set (m := Z.to_nat n) in *. set (k := Z.to_nat d).
  exists pts, wts, (Np.array (Itertools.product_pools (repeat pts k))),
    (map Np.prod (Itertools.product_pools (repeat wts k))),
    (Itertools.product_pools (repeat wts k)).
  assert (Hpow : Z.of_nat (m ^ k) = n ^ d).
  { rewrite Nat2Z.inj_pow. unfold m, k. rewrite !Z2Nat.id by lia. reflexivity. }
  assert (Hlen : length (Np.array (Itertools.product_pools (repeat pts k)))
                 = (m ^ k)%nat).
  { unfold Np.array. rewrite length_map, length_product_pools, Lp.
    reflexivity. }
  assert (Hlenw : length (map Np.prod (Itertools.product_pools (repeat wts k)))
                  = (m ^ k)%nat).
  { rewrite length_map, length_product_pools, Lw. reflexivity. }
  assert (Hwt : forall i, (i < m ^ k)%nat ->
            nth i (map Np.prod (Itertools.product_pools (repeat wts k))) 1%float
            = product_of_components
                (nth i (Itertools.product_pools (repeat wts k)) [])).
  { intros i Hi. change 1%float with (Np.prod []).
    rewrite (map_nth Np.prod).
    apply (prod_is_product_of_components _ wts Hone).
    apply (in_product_pools wts k). apply nth_In.
    rewrite length_product_pools, Lw. exact Hi. }
  split; [exact H1 | ].
  split; [apply gauss_nd_unfold; [exact H1 | lia] | ].
  split; [apply product_returns; lia | ].
  split; [rewrite Hlen; exact Hpow | ].
  split; [rewrite Hlenw; exact Hpow | ].
  split.
  { apply Forall_forall. intros p Hp. unfold Np.array in Hp.
    apply in_map_iff in Hp. destruct Hp as (t & <- & Ht).
    apply in_product_pools in Ht. destruct Ht as [Ht Hall].
    rewrite length_map, Ht. split; [unfold k; lia | ].
    apply Forall_map. revert Hall. apply Forall_impl.
    intros c Hc. apply in_map. exact Hc. }
  split.
  { intros i Hi. rewrite Hlenw in Hi. apply Hwt. exact Hi. }
  split.
  { intros i Hi. rewrite Hlen in Hi.
    assert (Htuple : nth i (Itertools.product_pools (repeat wts k)) []
                     = map (fun j => nth j wts 0%float) (axis_indices m k i)).
    { rewrite (nth_product_pools wts 0%float) by (rewrite Lw; exact Hi).
      rewrite Lw. reflexivity. }
    split; [ | split].
    - unfold Np.array. change (@nil float) with (map Py.to_float []).
      rewrite (map_nth (map Py.to_float)).
      rewrite (nth_product_pools pts (Py.Int 0)) by (rewrite Lp; exact Hi).
      rewrite Lp, map_map. reflexivity.
    - exact Htuple.
    - rewrite (Hwt i Hi), Htuple. reflexivity. }
  intros i j. rewrite Hlen. intros [Hij Hj].
  apply axis_indices_lex; assumption.
Qed.

Lemma gauss_nd_cartesian_witness :
  2 <= 3 <= 10 /\ 1 <= 2 < 2 ^ 60 /\
  exists nd_pts nd_wts,
    gauss_nd 3 2 = Ok (nd_pts, nd_wts) /\
    Z.of_nat (length nd_pts) = 3 ^ 2 /\
    Z.of_nat (length nd_wts) = 3 ^ 2.
Proof.
  split; [lia | split; [lia | ]].
  destruct (gauss_nd_cartesian 3 2) as
    (pts & wts & nd_pts & nd_wts & wt_tuples & _ & Hnd & _ & Hp & Hw & _);
    [lia | lia | ].
  exists nd_pts, nd_wts. split; [exact Hnd | split; [exact Hp | exact Hw]].
Defined.

Lemma perm_2x2 {A : Type} (a b c d : A) :
  Permutation [c; a; d; b] [a; b; c; d].
Proof.
  apply (Permutation_cons_app [a; b] [d] c). simpl.
  apply perm_skip. apply perm_swap.
Qed.

(** C3, as stated, fails: the (point, weight) pairs of [gauss_nd 2 2]
    and of [gpoints2x2] are not the same multiset, neither under [==]
    nor as values: [gpoints2x2] tabulates the abscissa as
    0.577350269189626, another binary64 number than
    0.577350269189625764. *)
Lemma gpoints2x2_other_abscissa :
  exists nd_pts nd_wts wts pts,
    gauss_nd 2 2 = Ok (nd_pts, nd_wts) /\
    gpoints2x2 = Ok (wts, pts) /\
    ~ same_rule_within 0 (combine nd_pts nd_wts) (combine pts wts) /\
    ~ Permutation (combine nd_pts nd_wts) (combine pts wts).
Proof.
  do 4 eexists. split; [reflexivity | ]. split; [reflexivity | ].
  assert (Hnot : ~ same_rule_within 0
            (combine (Np.array (Itertools.product_pools
                        (repeat [Py.Float (-0.577350269189625764);
                                 Py.Float 0.577350269189625764] 2)))
                     (map Np.prod (Itertools.product_pools
                        (repeat [1.00000000000000000%float;
                                 1.00000000000000000%float] 2))))
            (combine [[-0.577350269189626; 0.577350269189626];
                      [0.577350269189626; 0.577350269189626];
                      [-0.577350269189626; -0.577350269189626];
                      [0.577350269189626; -0.577350269189626]]%float
                     (Np.ones 4))).
  { intros (l & Hperm & Hall).
    cbn in Hall. inversion Hall as [ | a b r1 l' Hab Hrest]; subst.
    assert (Hin : In b (b :: l')) by (left; reflexivity).
    apply (Permutation_in _ Hperm) in Hin. cbn in Hin.
    each_case Hin; vm_compute in Hab; discriminate Hab. }
  split; [exact Hnot | ].
  intros Hperm. apply Hnot. eexists. split; [exact Hperm | ].
  cbn. repeat constructor.
Qed.

(** C3 (amended): [gauss_nd 2 2] yields exactly 4 points, the four sign
    combinations of 0.577350269189625764, each with weight 1.0, and its
    multiset of (point, weight) pairs is that of [gpoints2x2] up to
    1e-15 on every coordinate, the weights being equal. *)
Theorem gauss_nd_2x2_matches_legacy :
  let a := 0.577350269189625764%float in
  let b := 0.577350269189626%float in
  let nd_pts := [[-a; -a]; [-a; a]; [a; -a]; [a; a]]%float in
  let nd_wts := [1.0; 1.0; 1.0; 1.0]%float in
  let pts := [[-b; b]; [b; b]; [-b; -b]; [b; -b]]%float in
  gauss_nd 2 2 = Ok (nd_pts, nd_wts) /\
  gpoints2x2 = Ok (nd_wts, pts) /\
  same_rule_within 1e-15 (combine nd_pts nd_wts) (combine pts nd_wts).
Proof.
  cbv zeta. split; [reflexivity | ]. split; [reflexivity | ].
  cbn [combine]. eexists. split; [apply perm_2x2 | ].
  repeat constructor.
Qed.

(** C8, as stated, fails: the weights of [gpoints3] are not 1/3 and its
    coordinates are not 1/6 and 2/3 (as binary64 quotients, the numbers
    nearest to these fractions), but decimal approximations of them. *)
Lemma gpoints3_not_exact_fractions :
  exists wts pts,
    gpoints3 = Ok (wts, pts) /\
    close_point 0 wts [1 / 3; 1 / 3; 1 / 3]%float = false /\
    forallb (fun pq => close_point 0 (fst pq) (snd pq))
      (combine pts [[1 / 6; 1 / 6]; [2 / 3; 1 / 6]; [1 / 6; 2 / 3]]%float)
    = false.
Proof.
  do 2 eexists. split; [reflexivity | ]. split; vm_compute; reflexivity.
Qed.

(** C8 (amended): [gpoints3] returns the pair (weights, points),
    inverted relative to [gauss_tri 2], with weights three times
    0.333333333333 and points [[a, a], [b, a], [a, b]] for
    a = 0.1666666666667 and b = 0.6666666666667, in that order; these
    constants are 1/3, 1/6 and 2/3 within 1e-12. *)
Theorem gpoints3_legacy_order :
  let w := 0.333333333333%float in
  let a := 0.1666666666667%float in
  let b := 0.6666666666667%float in
  gpoints3 = Ok ([w; w; w], [[a; a]; [b; a]; [a; b]]) /\
  gauss_tri 2 = Ok ([[a; a]; [b; a]; [a; b]], [w; w; w]) /\
  close 1e-12 w (1 / 3) = true /\
  close 1e-12 a (1 / 6) = true /\
  close 1e-12 b (2 / 3) = true.
Proof.
  cbv zeta. repeat split; vm_compute; reflexivity.
Qed.

(** * Further properties *)

(** ** Checking a table over a range of exponents *)

Lemma forall_below (P : nat -> bool) (m : nat) :
  forallb P (seq 0 m) = true ->
  forall k, (k < m)%nat -> P k = true.
Proof.
  intros Hall k Hk. rewrite forallb_forall in Hall.
  apply Hall. apply in_seq. lia.
Qed.

Lemma forall_below2 (P : nat -> nat -> bool) (m : nat) :
  forallb (fun ab => P (fst ab) (snd ab)) (list_prod (seq 0 m) (seq 0 m))
  = true ->
  forall a b, (a < m)%nat -> (b < m)%nat -> P a b = true.
Proof.
  intros Hall a b Ha Hb. rewrite forallb_forall in Hall.
  apply (Hall (a, b)). apply in_prod; apply in_seq; lia.
Qed.

(** ** The rule builder over one more axis *)

Lemma product_pools_one {A : Type} (pool : list A) :
  Itertools.product_pools (repeat pool 1) = map (fun y => [y]) pool.
Proof.
  unfold Itertools.product_pools, Itertools.extend. simpl.
  apply app_nil_r.
Qed.

Lemma map_flat_map {A B C : Type} (f : B -> C) (g : A -> list B) (l : list A) :
  map f (flat_map g l) = flat_map (fun x => map f (g x)) l.
Proof.
  induction l as [ | x l IH]; simpl; [reflexivity | ].
  rewrite map_app, IH. reflexivity.
Qed.

Lemma flat_map_map {A B C : Type} (f : B -> list C) (g : A -> B) (l : list A) :
  flat_map f (map g l) = flat_map (fun x => f (g x)) l.
Proof.
  induction l as [ | x l IH]; simpl; [reflexivity | ].
  rewrite IH. reflexivity.
Qed.

Lemma flat_map_ext_in {A B : Type} (f g : A -> list B) (l : list A) :
  (forall x, In x l -> f x = g x) -> flat_map f l = flat_map g l.
Proof.
  induction l as [ | x l IH]; intros Hfg; simpl; [reflexivity | ].
  rewrite (Hfg x) by (left; reflexivity).
  rewrite IH; [reflexivity | ]. intros y Hy. apply Hfg. right. exact Hy.
Qed.

Lemma prod_snoc (t : list float) (v : float) :
  t <> [] -> Np.prod (t ++ [v]) = (Np.prod t * v)%float.
Proof.
  destruct t as [ | x r]; [congruence | intros _].
  simpl. rewrite fold_left_app. reflexivity.
Qed.

Lemma array_extend (P : list (list Py.num)) (pts : list Py.num) :
  Np.array (Itertools.extend P pts) =
  flat_map (fun p => map (fun x => p ++ [Py.to_float x]) pts) (Np.array P).
Proof.
  unfold Np.array, Itertools.extend.
  rewrite map_flat_map, flat_map_map. apply flat_map_ext_in.
  intros t _. rewrite map_map. apply map_ext.
  intros x. rewrite map_app. reflexivity.
Qed.

Lemma prod_extend (P : list (list float)) (wts : list float) :
  Forall (fun t => t <> []) P ->
  map Np.prod (Itertools.extend P wts) =
  flat_map (fun w => map (fun v => (w * v)%float) wts) (map Np.prod P).
Proof.
  intros Hne. unfold Itertools.extend.
  rewrite map_flat_map, flat_map_map. apply flat_map_ext_in.
  intros t Ht. rewrite map_map. apply map_ext.
  intros v. apply prod_snoc.
  rewrite Forall_forall in Hne. apply Hne. exact Ht.
Qed.

(** X1: for valid [n], [gauss_nd n 1] is the rule of [gauss_1d n]: its
    points are the abscissas as 1-tuples and its weights are the 1-D
    weights themselves. *)
Theorem gauss_nd_one_dim (n : Z) :
  2 <= n <= 10 ->
  exists pts wts,
    gauss_1d n = Ok (pts, wts) /\
    gauss_nd n 1 = Ok (column pts, wts).
Proof.
  intros Hn. destruct (gauss_1d_returns n Hn) as (pts & wts & H1 & _).
  exists pts, wts. split; [exact H1 | ].
  rewrite (gauss_nd_unfold n 1 pts wts H1) by lia.
  change (Z.to_nat 1) with 1%nat. rewrite !product_pools_one.
  unfold Np.array, column. rewrite !map_map. simpl.
  rewrite map_id. reflexivity.
Qed.

Lemma gauss_nd_one_dim_witness :
  2 <= 3 <= 10 /\
  exists pts wts,
    gauss_1d 3 = Ok (pts, wts) /\
    gauss_nd 3 1 = Ok (column pts, wts).
Proof.
  split; [lia | apply (gauss_nd_one_dim 3); lia].
Defined.

(** X2: for valid [n] and [1 <= d < 2^60 - 1], the rule of dimension
    [d + 1] is the rule of dimension [d] extended by one axis: every
    point is followed by each abscissa in turn, and every weight is
    multiplied by each 1-D weight in turn, in that order. *)
Theorem gauss_nd_succ_dim (n d : Z) :
  2 <= n <= 10 -> 1 <= d < 2 ^ 60 - 1 ->
  exists pts wts nd_pts nd_wts,
    gauss_1d n = Ok (pts, wts) /\
    gauss_nd n d = Ok (nd_pts, nd_wts) /\
    gauss_nd n (d + 1) =
      Ok (flat_map (fun p => map (fun x => p ++ [Py.to_float x]) pts) nd_pts,
          flat_map (fun w => map (fun v => (w * v)%float) wts) nd_wts).
Proof.
  intros Hn Hd. destruct (gauss_1d_returns n Hn) as (pts & wts & H1 & _).
  exists pts, wts. do 2 eexists. split; [exact H1 | ].
  split; [apply gauss_nd_unfold; [exact H1 | lia] | ].
  rewrite (gauss_nd_unfold n (d + 1) pts wts H1) by lia.
  replace (Z.to_nat (d + 1)) with (S (Z.to_nat d)) by lia.
  rewrite !product_pools_succ, array_extend, prod_extend; [reflexivity | ].
  apply Forall_forall. intros t Ht. apply in_product_pools in Ht.
  destruct Ht as [Hlen _]. intros ->. simpl in Hlen. lia.
Qed.

Lemma gauss_nd_succ_dim_witness :
  2 <= 2 <= 10 /\ 1 <= 1 < 2 ^ 60 - 1 /\
  exists pts wts nd_pts nd_wts,
    gauss_1d 2 = Ok (pts, wts) /\
    gauss_nd 2 1 = Ok (nd_pts, nd_wts) /\
    gauss_nd 2 (1 + 1) =
      Ok (flat_map (fun p => map (fun x => p ++ [Py.to_float x]) pts) nd_pts,
          flat_map (fun w => map (fun v => (w * v)%float) wts) nd_wts).
Proof.
  split; [lia | split; [lia | apply (gauss_nd_succ_dim 2 1); lia]].
Defined.

(** X3: [gauss_nd n d] returns a rule exactly when [n] is in [2, 10]
    and [0 <= d < 2^60]; otherwise it raises: a bad point count is
    reported first, whatever [d] is; then a [d] that is no [Py_ssize_t],
    a negative [d], and a [d] from [2^60] on are refused by the product
    generator, each with its own error. *)
Theorem gauss_nd_returns_iff (n d : Z) :
  ((exists rule, gauss_nd n d = Ok rule) <->
   2 <= n <= 10 /\ 0 <= d < 2 ^ 60) /\
  (~ (2 <= n <= 10) ->
   gauss_nd n d =
     Raise (ValueError "The number of points should be in [2, 10]")) /\
  (2 <= n <= 10 -> - 2 ^ 63 <= d < 0 ->
   gauss_nd n d = Raise (ValueError "repeat argument cannot be negative")) /\
  (2 <= n <= 10 -> 2 ^ 60 <= d < 2 ^ 63 ->
   gauss_nd n d = Raise (OverflowError "repeat argument too large")) /\
  (2 <= n <= 10 -> d < - 2 ^ 63 \/ 2 ^ 63 <= d ->
   gauss_nd n d =
     Raise (OverflowError "Python int too large to convert to C ssize_t")).
Proof.
  assert (Hbad : ~ (2 <= n <= 10) ->
                 gauss_nd n d =
                 Raise (ValueError "The number of points should be in [2, 10]")).
  { intros Hn. unfold gauss_nd. rewrite (gauss_1d_raises n Hn). reflexivity. }
  split; [ | split; [exact Hbad | split; [apply gauss_nd_negative_dim | split;
    [apply gauss_nd_too_large_dim | apply gauss_nd_not_ssize_t_dim]]]].
  split.
  - intros [rule Hrule].
    assert (Hn : 2 <= n <= 10).
    { destruct (Z_le_dec 2 n) as [H2 | H2];
        [destruct (Z_le_dec n 10) as [H10 | H10]; [lia | ] | ];
        rewrite Hbad in Hrule by lia; discriminate Hrule. }
    split; [exact Hn | ].
    destruct (Z_lt_dec d (- 2 ^ 63)) as [Hlow | Hlow].
    { rewrite gauss_nd_not_ssize_t_dim in Hrule by (auto; lia).
      discriminate Hrule. }
    destruct (Z_lt_dec d 0) as [Hneg | Hneg].
    { rewrite gauss_nd_negative_dim in Hrule by (auto; lia).
      discriminate Hrule. }
    destruct (Z_lt_dec d (2 ^ 60)) as [Hok | Hbig]; [lia | ].
    destruct (Z_lt_dec d (2 ^ 63)) as [Hmid | Hhigh].
    { rewrite gauss_nd_too_large_dim in Hrule by (auto; lia).
      discriminate Hrule. }
    rewrite gauss_nd_not_ssize_t_dim in Hrule by (auto; lia).
    discriminate Hrule.
  - intros [Hn Hd]. destruct (gauss_1d_returns n Hn) as (pts & wts & H1 & _).
    eexists. apply (gauss_nd_unfold n d pts wts H1 Hd).
Qed.

Lemma gauss_nd_returns_iff_witness :
  (exists rule, gauss_nd 2 3 = Ok rule) /\
  gauss_nd 1 (-1) =
    Raise (ValueError "The number of points should be in [2, 10]") /\
  gauss_nd 2 (-1) = Raise (ValueError "repeat argument cannot be negative") /\
  gauss_nd 2 (2 ^ 60) = Raise (OverflowError "repeat argument too large") /\
  gauss_nd 2 (2 ^ 63) =
    Raise (OverflowError "Python int too large to convert to C ssize_t").
Proof.
  split; [ | split; [ | split; [ | split]]].
  - apply (proj1 (gauss_nd_returns_iff 2 3)). lia.
  - apply (proj1 (proj2 (gauss_nd_returns_iff 1 (-1)))). lia.
  - apply (proj1 (proj2 (proj2 (gauss_nd_returns_iff 2 (-1))))); lia.
  - apply (proj1 (proj2 (proj2 (proj2 (gauss_nd_returns_iff 2 (2 ^ 60)))))); lia.
  - apply (proj2 (proj2 (proj2 (proj2 (gauss_nd_returns_iff 2 (2 ^ 63)))))); lia.
Defined.

(** ** Symmetry and bounds in every dimension *)

Lemma gauss_1d_table_facts (n : Z) :
  2 <= n <= 10 ->
  exists pts wts,
    gauss_1d n = Ok (pts, wts) /\
    rev wts = wts /\
    Forall (fun c => PrimFloat.ltb (-1) c = true /\ PrimFloat.ltb c 1 = true)
           (map Py.to_float pts).
Proof.
  intros Hn. apply line_count_cases in Hn.
  each_case Hn; do 2 eexists; (split; [reflexivity | ]);
    (split; [reflexivity | ]); repeat constructor.
Qed.

Lemma rev_flat_map {A B : Type} (f : A -> list B) (l : list A) :
  rev (flat_map f l) = flat_map (fun x => rev (f x)) (rev l).
Proof.
  induction l as [ | x l IH]; simpl; [reflexivity | ].
  rewrite rev_app_distr, IH, flat_map_app. simpl.
  rewrite app_nil_r. reflexivity.
Qed.

Lemma extend_rev {A : Type} (P : list (list A)) (pool : list A) :
  Itertools.extend (rev P) (rev pool) = rev (Itertools.extend P pool).
Proof.
  unfold Itertools.extend. rewrite rev_flat_map.
  apply flat_map_ext_in. intros x _. apply map_rev.
Qed.

Lemma product_pools_rev {A : Type} (pool : list A) (d : nat) :
  Itertools.product_pools (repeat (rev pool) d) =
  rev (Itertools.product_pools (repeat pool d)).
Proof.
  induction d as [ | d IH]; [reflexivity | ].
  rewrite !product_pools_succ, IH. apply extend_rev.
Qed.

(** X4: for valid [n] and [0 <= d < 2^60], the weights of
    [gauss_nd n d] read the same in both directions: the [i]-th point
    from the start and the [i]-th point from the end carry the same
    weight. *)
Theorem gauss_nd_weights_palindrome (n d : Z) :
  2 <= n <= 10 -> 0 <= d < 2 ^ 60 ->
  exists nd_pts nd_wts,
    gauss_nd n d = Ok (nd_pts, nd_wts) /\ rev nd_wts = nd_wts.
Proof.
  intros Hn Hd.
  destruct (gauss_1d_table_facts n Hn) as (pts & wts & H1 & Hrev & _).
  do 2 eexists. split; [apply (gauss_nd_unfold n d pts wts H1 Hd) | ].
  rewrite <- map_rev, <- product_pools_rev, Hrev. reflexivity.
Qed.

Lemma gauss_nd_weights_palindrome_witness :
  2 <= 3 <= 10 /\ 0 <= 2 < 2 ^ 60 /\
  exists nd_pts nd_wts,
    gauss_nd 3 2 = Ok (nd_pts, nd_wts) /\ rev nd_wts = nd_wts.
Proof.
  split; [lia | split; [lia | apply (gauss_nd_weights_palindrome 3 2); lia]].
Defined.

(** X5: for valid [n] and [0 <= d < 2^60], every coordinate of every
    point of [gauss_nd n d] lies strictly between -1 and 1: the points
    are inside the reference hypercube. *)
Theorem gauss_nd_points_in_cube (n d : Z) :
  2 <= n <= 10 -> 0 <= d < 2 ^ 60 ->
  exists nd_pts nd_wts,
    gauss_nd n d = Ok (nd_pts, nd_wts) /\
    Forall (Forall (fun c => PrimFloat.ltb (-1) c = true /\
                             PrimFloat.ltb c 1 = true)) nd_pts.
Proof.
  intros Hn Hd.
  destruct (gauss_1d_table_facts n Hn) as (pts & wts & H1 & _ & Hin).
  do 2 eexists. split; [apply (gauss_nd_unfold n d pts wts H1 Hd) | ].
  apply Forall_forall. intros p Hp. unfold Np.array in Hp.
  apply in_map_iff in Hp. destruct Hp as (t & <- & Ht).
  apply in_product_pools in Ht. destruct Ht as [_ Hall].
  apply Forall_map. revert Hall. apply Forall_impl. intros c Hc.
  rewrite Forall_forall in Hin. apply Hin. apply in_map. exact Hc.
Qed.

Lemma gauss_nd_points_in_cube_witness :
  2 <= 4 <= 10 /\ 0 <= 3 < 2 ^ 60 /\
  exists nd_pts nd_wts,
    gauss_nd 4 3 = Ok (nd_pts, nd_wts) /\
    Forall (Forall (fun c => PrimFloat.ltb (-1) c = true /\
                             PrimFloat.ltb c 1 = true)) nd_pts.
Proof.
  split; [lia | split; [lia | apply (gauss_nd_points_in_cube 4 3); lia]].
Defined.

(** ** Degree of exactness of the tables *)

(** X6: for [n] in [2, 10], the [n]-point rule of [gauss_1d] integrates
    every monomial [x^k] of degree [k <= 2n - 1] over [-1, 1] within
    1e-15, and misses the integral of [x^(2n)] by more than 1e-6. *)
Theorem gauss_1d_degree_of_exactness (n : Z) (k : nat) :
  2 <= n <= 10 -> (k < 2 * Z.to_nat n)%nat ->
  exists pts wts,
    gauss_1d n = Ok (pts, wts) /\
    close 1e-15 (apply_rule (monomial [k]) (column pts) wts)
                (line_integral k) = true /\
    close 1e-6 (apply_rule (monomial [2 * Z.to_nat n]%nat) (column pts) wts)
               (line_integral (2 * Z.to_nat n)) = false.
Proof.
  intros Hn Hk. apply line_count_cases in Hn.
  each_case Hn; do 2 eexists; (split; [reflexivity | ]);
    (split; [ | vm_compute; reflexivity]);
    revert k Hk; apply forall_below; vm_compute; reflexivity.
Qed.

Lemma gauss_1d_degree_of_exactness_witness :
  2 <= 3 <= 10 /\ (5 < 2 * Z.to_nat 3)%nat /\
  exists pts wts,
    gauss_1d 3 = Ok (pts, wts) /\
    close 1e-15 (apply_rule (monomial [5%nat]) (column pts) wts)
                (line_integral 5) = true /\
    close 1e-6 (apply_rule (monomial [2 * Z.to_nat 3]%nat) (column pts) wts)
               (line_integral (2 * Z.to_nat 3)) = false.
Proof.
  split; [lia | split; [simpl; lia | ]].
  apply (gauss_1d_degree_of_exactness 3 5); simpl; lia.
Defined.

(** X7: for [n] in [2, 10], [gauss_1d n] returns strictly positive
    weights that read the same in both directions, and abscissas in
    strictly increasing order. *)
Theorem gauss_1d_weights_and_order (n : Z) :
  2 <= n <= 10 ->
  exists pts wts,
    gauss_1d n = Ok (pts, wts) /\
    Forall (fun w => PrimFloat.ltb 0 w = true) wts /\
    rev wts = wts /\
    (forall i, (S i < length pts)%nat ->
       Py.lt (nth i pts (Py.Int 0)) (nth (S i) pts (Py.Int 0)) = true).
Proof.
  intros Hn. apply line_count_cases in Hn.
  each_case Hn; do 2 eexists; (split; [reflexivity | ]);
    (split; [repeat constructor | ]);
    (split; [reflexivity | ]);
    intros i Hi; simpl in Hi;
    repeat (destruct i as [ | i];
            [vm_compute; reflexivity | try (exfalso; lia)]).
Qed.

Lemma gauss_1d_weights_and_order_witness :
  2 <= 5 <= 10 /\
  exists pts wts,
    gauss_1d 5 = Ok (pts, wts) /\
    Forall (fun w => PrimFloat.ltb 0 w = true) wts /\
    rev wts = wts.
Proof.
  split; [lia | ].
  destruct (gauss_1d_weights_and_order 5) as (pts & wts & H1 & Hpos & Hrev & _);
    [lia | ].
  exists pts, wts. split; [exact H1 | split; [exact Hpos | exact Hrev]].
Defined.

(** X8: for [n] in [2, 10], the planar rule [gauss_nd n 2] integrates
    every monomial [x^a y^b] with [a, b <= 2n - 1] over the square
    [-1, 1] x [-1, 1] within 1e-14; with [a = b = 0] its weights sum to
    4. *)
Theorem gauss_nd_square_exactness (n : Z) (a b : nat) :
  2 <= n <= 10 -> (a < 2 * Z.to_nat n)%nat -> (b < 2 * Z.to_nat n)%nat ->
  exists nd_pts nd_wts,
    gauss_nd n 2 = Ok (nd_pts, nd_wts) /\
    close 1e-14 (apply_rule (monomial [a; b]) nd_pts nd_wts)
                (cube_integral [a; b]) = true.
Proof.
  intros Hn Ha Hb. apply line_count_cases in Hn.
  each_case Hn; do 2 eexists; (split; [reflexivity | ]);
    revert a b Ha Hb; apply forall_below2; vm_compute; reflexivity.
Qed.

Lemma gauss_nd_square_exactness_witness :
  2 <= 2 <= 10 /\ (3 < 2 * Z.to_nat 2)%nat /\ (2 < 2 * Z.to_nat 2)%nat /\
  exists nd_pts nd_wts,
    gauss_nd 2 2 = Ok (nd_pts, nd_wts) /\
    close 1e-14 (apply_rule (monomial [3; 2]%nat) nd_pts nd_wts)
                (cube_integral [3; 2]%nat) = true.
Proof.
  split; [lia | split; [simpl; lia | split; [simpl; lia | ]]].
  apply (gauss_nd_square_exactness 2 3 2); simpl; lia.
Defined.

(** X9: for every order in [1, 7], the rule of [gauss_tri order]
    integrates every monomial [x^a y^b] of degree [a + b <= order] over
    the reference triangle (divided by its area) within 2e-12; with
    [a = b = 0] its weights sum to 1. *)
Theorem gauss_tri_degree_of_exactness (order : Z) (a b : nat) :
  1 <= order <= 7 -> (a + b <= Z.to_nat order)%nat ->
  exists pts wts,
    gauss_tri order = Ok (pts, wts) /\
    close 2e-12 (apply_rule (monomial [a; b]) pts wts) (tri_integral a b)
    = true.
Proof.
  intros Ho Hab. apply tri_order_cases in Ho.
  each_case Ho; do 2 eexists; (split; [reflexivity | ]);
    do 8 (destruct a as [ | a];
          [do 8 (destruct b as [ | b];
                 [first [exfalso; simpl in Hab; lia | vm_compute; reflexivity] | ]);
           exfalso; simpl in Hab; lia | ]);
    exfalso; simpl in Hab; lia.
Qed.

Lemma gauss_tri_degree_of_exactness_witness :
  1 <= 7 <= 7 /\ (3 + 4 <= Z.to_nat 7)%nat /\
  exists pts wts,
    gauss_tri 7 = Ok (pts, wts) /\
    close 2e-12 (apply_rule (monomial [3; 4]%nat) pts wts) (tri_integral 3 4)
    = true.
Proof.
  split; [lia | split; [simpl; lia | ]].
  apply (gauss_tri_degree_of_exactness 7 3 4); simpl; lia.
Defined.

(** X10: for every order in [1, 7], each point of [gauss_tri order] has
    two coordinates and lies strictly inside the reference triangle
    ([x > 0], [y > 0], [x + y < 1]); for orders up to 5 every weight is
    strictly positive. *)
Theorem gauss_tri_points_inside (order : Z) :
  1 <= order <= 7 ->
  exists pts wts,
    gauss_tri order = Ok (pts, wts) /\
    Forall (fun p => exists x y,
              p = [x; y] /\ PrimFloat.ltb 0 x = true /\
              PrimFloat.ltb 0 y = true /\
              PrimFloat.ltb (x + y) 1 = true) pts /\
    (order <= 5 -> Forall (fun w => PrimFloat.ltb 0 w = true) wts).
Proof.
  intros Ho. apply tri_order_cases in Ho.
  each_case Ho; do 2 eexists; (split; [reflexivity | ]);
    (split; [repeat (constructor; [do 2 eexists; repeat split | ]);
             constructor
            | intros H5; first [exfalso; lia | repeat constructor]]).
Qed.

Lemma gauss_tri_points_inside_witness :
  1 <= 4 <= 7 /\
  exists pts wts,
    gauss_tri 4 = Ok (pts, wts) /\
    Forall (fun w => PrimFloat.ltb 0 w = true) wts.
Proof.
  split; [lia | ].
  destruct (gauss_tri_points_inside 4) as (pts & wts & H1 & _ & Hpos); [lia | ].
  exists pts, wts. split; [exact H1 | apply Hpos; lia].
Defined.

(** ** The fixed grids *)

(** X11: [gpoints7] returns the 7-point rule of [gauss_tri] for the orders
    3, 4 and 5, with the pair in the other order: (weights, points). *)
Theorem gpoints7_is_gauss_tri (order : Z) :
  3 <= order <= 5 ->
  exists pts wts,
    gauss_tri order = Ok (pts, wts) /\ gpoints7 = Ok (wts, pts).
Proof.
  intros Ho. assert (Hc : In order [3; 4; 5]) by (simpl; lia).
  each_case Hc; do 2 eexists; split; reflexivity.
Qed.

Lemma gpoints7_is_gauss_tri_witness :
  3 <= 5 <= 5 /\
  exists pts wts,
    gauss_tri 5 = Ok (pts, wts) /\ gpoints7 = Ok (wts, pts).
Proof.
  split; [lia | apply (gpoints7_is_gauss_tri 5); lia].
Defined.

(** X12: the rule of [gpoints2x2] integrates every monomial [x^a y^b]
    with [a, b <= 3] over the square [-1, 1] x [-1, 1] within 1e-15,
    its shorter abscissa notwithstanding. *)
Theorem gpoints2x2_exactness (a b : nat) :
  (a < 4)%nat -> (b < 4)%nat ->
  exists wts pts,
    gpoints2x2 = Ok (wts, pts) /\
    close 1e-15 (apply_rule (monomial [a; b]) pts wts)
                (cube_integral [a; b]) = true.
Proof.
  intros Ha Hb. do 2 eexists. split; [reflexivity | ].
  revert a b Ha Hb. apply forall_below2. vm_compute. reflexivity.
Qed.

Lemma gpoints2x2_exactness_witness :
  (2 < 4)%nat /\ (2 < 4)%nat /\
  exists wts pts,
    gpoints2x2 = Ok (wts, pts) /\
    close 1e-15 (apply_rule (monomial [2; 2]%nat) pts wts)
                (cube_integral [2; 2]%nat) = true.
Proof.
  split; [lia | split; [lia | ]].
  apply (gpoints2x2_exactness 2 2); lia.
Defined.
